(** * AreaPreview: the rectangular-area editor of the map editor

    A shallow embedding of [AreaPreview] (a Phaser container owning one
    rectangle and eight [SizeAlteringSquare] handles) together with the
    properties of its move / resize interactions, of its externally driven
    updates and of the visibility of its handles.

    Numbers.  The component computes with JavaScript numbers using only
    [+], [-], [* 0.5] and [>= 32].  They are modelled as exact rationals
    ([Q]); derived coordinates are compared with [==] ([Qeq]), so every
    statement below is about the arithmetic the code writes down, not
    about the rounding of binary floating point.

    Objects.  A JavaScript object used as a string-keyed map is a
    [gmap string _]; an optional field ([Partial<...>]) is an [option]:
    a field is either absent or carries a value. *)

From Stdlib Require Import QArith Lqa.
From stdpp Require Import gmap strings list fin_maps vector.

#[local] Set Warnings "-register-all".
#[local] Open Scope Q_scope.

(** ** Property values *)

(** The values stored under [AreaData.properties]: primitives and plain
    objects, nested to any depth. *)
Inductive Value :=
| VNum (n : Q)
| VStr (s : string)
| VBool (b : bool)
| VObj (fields : gmap string Value).

(** ** Area data and its partial forms *)

Module AreaData.
(** Modelled from the spec: the [AreaData] type of
    [@workadventure/map-editor], whose declaration is not part of the
    sources at hand: id, name, top-left corner, size and an open mapping
    of properties. *)
Record t := mk {
  id : string;
  name : string;
  x : Q;
  y : Q;
  width : Q;
  height : Q;
  properties : gmap string Value;
}.
End AreaData.

Module PartialAreaData.
(** [Partial<AreaData>]: every field optional. *)
Record t := mk {
  id : option string;
  name : option string;
  x : option Q;
  y : option Q;
  width : option Q;
  height : option Q;
  properties : option (gmap string Value);
}.
End PartialAreaData.

Module AtLeastId.
(** [AtLeast<AreaData, "id">]: [id] mandatory, every other field optional. *)
Record t := mk {
  id : string;
  name : option string;
  x : option Q;
  y : option Q;
  width : option Q;
  height : option Q;
  properties : option (gmap string Value);
}.

(** The object literal [{ id: i, ...dataToChange }]: the spread comes
    second, so an [id] carried by [dataToChange] wins. *)
Definition spread (i : string) (dataToChange : PartialAreaData.t) : t :=
  {| id := default i (PartialAreaData.id dataToChange);
     name := PartialAreaData.name dataToChange;
     x := PartialAreaData.x dataToChange;
     y := PartialAreaData.y dataToChange;
     width := PartialAreaData.width dataToChange;
     height := PartialAreaData.height dataToChange;
     properties := PartialAreaData.properties dataToChange |}.

(** The object literal [{ id, x, y, width, height }] of the two commit
    paths. *)
Definition geometry (i : string) (x' y' width' height' : Q) : t :=
  {| id := i; name := None;
     x := Some x'; y := Some y'; width := Some width'; height := Some height';
     properties := None |}.

(** The object literal [{ id, properties: { [key]: value } }]. *)
Definition property (i : string) (key : string) (value : Value) : t :=
  {| id := i; name := None;
     x := None; y := None; width := None; height := None;
     properties := Some {[ key := value ]} |}.
End AtLeastId.

(** ** lodash's [_.merge] *)

Module Lodash.
(** [baseMerge] on property values: a plain object of the source is
    merged key by key into an object of the destination; any other
    source value, and an object arriving where the destination holds no
    object, replaces the destination value. *)
Fixpoint merge_value (object source : Value) {struct source} : Value :=
  match source with
  | VObj sf =>
      match object with
      | VObj df =>
          VObj (map_imap
                  (fun key srcValue =>
                     Some (match df !! key with
                           | Some objValue => merge_value objValue srcValue
                           | None => srcValue
                           end)) sf ∪ df)
      | _ => source
      end
  | _ => source
  end.

Definition merge_fields (object source : gmap string Value)
  : gmap string Value :=
  match merge_value (VObj object) (VObj source) with
  | VObj fields => fields
  | _ => object
  end.

(** [_.merge(areaData, dataToModify)]: fields present in the source
    overwrite the destination, [properties] is merged recursively. *)
Definition merge (object : AreaData.t) (source : AtLeastId.t) : AreaData.t :=
  {| AreaData.id := AtLeastId.id source;
     AreaData.name := default (AreaData.name object) (AtLeastId.name source);
     AreaData.x := default (AreaData.x object) (AtLeastId.x source);
     AreaData.y := default (AreaData.y object) (AtLeastId.y source);
     AreaData.width := default (AreaData.width object) (AtLeastId.width source);
     AreaData.height :=
       default (AreaData.height object) (AtLeastId.height source);
     AreaData.properties :=
       match AtLeastId.properties source with
       | Some sp => merge_fields (AreaData.properties object) sp
       | None => AreaData.properties object
       end |}.
End Lodash.

(** ** The host's primitives *)

Module Vector2.
Record t := mk { x : Q; y : Q }.
End Vector2.

Module Rectangle.
(** [Phaser.GameObjects.Rectangle] as the component uses it: a centre,
    a displayed size and a visibility flag.  The origin is the centre
    of the shape, so the anchor getters measure from
    [x - displayWidth * 0.5] and [y - displayHeight * 0.5]. *)
Record t := mk {
  x : Q;
  y : Q;
  displayWidth : Q;
  displayHeight : Q;
  visible : bool;
}.

Definition set_x (v : Q) (r : t) : t :=
  mk v (y r) (displayWidth r) (displayHeight r) (visible r).
Definition set_y (v : Q) (r : t) : t :=
  mk (x r) v (displayWidth r) (displayHeight r) (visible r).
Definition set_displayWidth (v : Q) (r : t) : t :=
  mk (x r) (y r) v (displayHeight r) (visible r).
Definition set_displayHeight (v : Q) (r : t) : t :=
  mk (x r) (y r) (displayWidth r) v (visible r).
Definition setVisible (v : bool) (r : t) : t :=
  mk (x r) (y r) (displayWidth r) (displayHeight r) v.

Definition left (r : t) : Q := x r - displayWidth r * 0.5.
Definition top (r : t) : Q := y r - displayHeight r * 0.5.

Definition getTopLeft (r : t) : Vector2.t :=
  Vector2.mk (left r) (top r).
Definition getTopCenter (r : t) : Vector2.t :=
  Vector2.mk (left r + displayWidth r * 0.5) (top r).
Definition getTopRight (r : t) : Vector2.t :=
  Vector2.mk (left r + displayWidth r) (top r).
Definition getLeftCenter (r : t) : Vector2.t :=
  Vector2.mk (left r) (top r + displayHeight r * 0.5).
Definition getRightCenter (r : t) : Vector2.t :=
  Vector2.mk (left r + displayWidth r) (top r + displayHeight r * 0.5).
Definition getBottomLeft (r : t) : Vector2.t :=
  Vector2.mk (left r) (top r + displayHeight r).
Definition getBottomCenter (r : t) : Vector2.t :=
  Vector2.mk (left r + displayWidth r * 0.5) (top r + displayHeight r).
Definition getBottomRight (r : t) : Vector2.t :=
  Vector2.mk (left r + displayWidth r) (top r + displayHeight r).
End Rectangle.

(** Modelled from the spec: [SizeAlteringSquarePosition], declared in
  [./SizeAlteringSquare], which is not part of the sources at hand.  The
  eight handle identities, numbered in the order in which the
  constructor fills [squares]. *)
Inductive Edge :=
| TopLeft | TopCenter | TopRight
| LeftCenter | RightCenter
| BottomLeft | BottomCenter | BottomRight.

#[global] Instance Edge_eq_dec : EqDecision Edge.
Proof. solve_decision. Defined.

Definition index_of (e : Edge) : fin 8 :=
match e with
| TopLeft => 0%fin
| TopCenter => 1%fin
| TopRight => 2%fin
| LeftCenter => 3%fin
| RightCenter => 4%fin
| BottomLeft => 5%fin
| BottomCenter => 6%fin
| BottomRight => 7%fin
end.

Module SizeAlteringSquare.
(** Modelled from the spec: the handle class of [./SizeAlteringSquare],
    which is not part of the sources at hand: a marker with a position
    and a visibility flag, repositioned and shown or hidden by its
    owner. *)
Record t := mk { x : Q; y : Q; visible : bool }.

Definition create (position : Vector2.t) : t :=
  mk (Vector2.x position) (Vector2.y position) true.
Definition set_x (v : Q) (s : t) : t := mk v (y s) (visible s).
Definition set_y (v : Q) (s : t) : t := mk (x s) v (visible s).
Definition setPosition (x' y' : Q) (s : t) : t := mk x' y' (visible s).
Definition setVisible (v : bool) (s : t) : t := mk (x s) (y s) v.
End SizeAlteringSquare.

(** ** Events and effects *)

Inductive AreaPreviewEvent :=
| Clicked
| DoubleClicked
| Update (data : AtLeastId.t)
| Delete.

(** What a method or handler does to the outside: emit an event to the
    listeners, tell the scene that it is dirty, or raise. *)
Inductive Effect :=
| Emit (event : AreaPreviewEvent)
| MarkDirty
| Throw (message : string).

Inductive Scene := GameScene | OtherScene.

(** ** The component *)

Module AreaPreview.

Record t := mk {
  scene : Scene;
  areaData : AreaData.t;
  preview : Rectangle.t;
  squares : vec SizeAlteringSquare.t 8;
  selected : bool;
  moved : bool;
  squareSelected : bool;
}.

Definition set_areaData (v : AreaData.t) (this : t) : t :=
  mk (scene this) v (preview this) (squares this)
     (selected this) (moved this) (squareSelected this).
Definition set_preview (v : Rectangle.t) (this : t) : t :=
  mk (scene this) (areaData this) v (squares this)
     (selected this) (moved this) (squareSelected this).
Definition set_squares (v : vec SizeAlteringSquare.t 8) (this : t) : t :=
  mk (scene this) (areaData this) (preview this) v
     (selected this) (moved this) (squareSelected this).
Definition set_selected (v : bool) (this : t) : t :=
  mk (scene this) (areaData this) (preview this) (squares this)
     v (moved this) (squareSelected this).
Definition set_moved (v : bool) (this : t) : t :=
  mk (scene this) (areaData this) (preview this) (squares this)
     (selected this) v (squareSelected this).
Definition set_squareSelected (v : bool) (this : t) : t :=
  mk (scene this) (areaData this) (preview this) (squares this)
     (selected this) (moved this) v.

(** [this.squares[index]] and assignments through it. *)
Definition square (index : Edge) (this : t) : SizeAlteringSquare.t :=
  squares this !!! index_of index.
Definition update_square (index : Edge)
    (f : SizeAlteringSquare.t -> SizeAlteringSquare.t) (this : t) : t :=
  set_squares (vinsert (index_of index) (f (square index this)) (squares this))
              this.

Definition getAreaData (this : t) : AreaData.t := areaData this.
Definition getName (this : t) : string := AreaData.name (areaData this).
Definition getId (this : t) : string := AreaData.id (areaData this).

Definition createPreview (areaData : AreaData.t) : Rectangle.t :=
  Rectangle.mk
    (AreaData.x areaData + AreaData.width areaData * 0.5)
    (AreaData.y areaData + AreaData.height areaData * 0.5)
    (AreaData.width areaData)
    (AreaData.height areaData)
    true.

Definition showSizeAlteringSquares (show : bool) (this : t) : t :=
  if show && negb (Rectangle.visible (preview this)) then this
  else set_squares (vmap (SizeAlteringSquare.setVisible show) (squares this))
                   this.

Definition updateSquaresPositions (this : t) : t :=
  let place (index : Edge) (anchor : Rectangle.t -> Vector2.t) (this : t) :=
    update_square index
      (SizeAlteringSquare.setPosition
         (Vector2.x (anchor (preview this)))
         (Vector2.y (anchor (preview this)))) this in
  let this := place TopLeft Rectangle.getTopLeft this in
  let this := place TopCenter Rectangle.getTopCenter this in
  let this := place TopRight Rectangle.getTopRight this in
  let this := place LeftCenter Rectangle.getLeftCenter this in
  let this := place RightCenter Rectangle.getRightCenter this in
  let this := place BottomLeft Rectangle.getBottomLeft this in
  let this := place BottomCenter Rectangle.getBottomCenter this in
  place BottomRight Rectangle.getBottomRight this.

Definition updateAreaDataWithSquaresAdjustments (this : t) : t :=
  let p := preview this in
  let a := areaData this in
  set_areaData
    {| AreaData.id := AreaData.id a;
       AreaData.name := AreaData.name a;
       AreaData.x := Rectangle.x p - Rectangle.displayWidth p * 0.5;
       AreaData.y := Rectangle.y p - Rectangle.displayHeight p * 0.5;
       AreaData.width := Rectangle.displayWidth p;
       AreaData.height := Rectangle.displayHeight p;
       AreaData.properties := AreaData.properties a |}
    this.

(** The payload built by both commit paths. *)
Definition geometryOf (this : t) : AtLeastId.t :=
  let p := preview this in
  AtLeastId.geometry (AreaData.id (getAreaData this))
    (Rectangle.x p - Rectangle.displayWidth p * 0.5)
    (Rectangle.y p - Rectangle.displayHeight p * 0.5)
    (Rectangle.displayWidth p)
    (Rectangle.displayHeight p).

(** [if (this.scene instanceof GameScene) markDirty() else throw]. *)
Definition markDirtyOrThrow (this : t) : list Effect :=
  match scene this with
  | GameScene => [MarkDirty]
  | OtherScene => [Throw "Not the Game Scene"]
  end.

Definition constructor (scene : Scene) (areaData : AreaData.t) : t :=
  let preview := createPreview areaData in
  let squares :=
    [# SizeAlteringSquare.create (Rectangle.getTopLeft preview);
       SizeAlteringSquare.create (Rectangle.getTopCenter preview);
       SizeAlteringSquare.create (Rectangle.getTopRight preview);
       SizeAlteringSquare.create (Rectangle.getLeftCenter preview);
       SizeAlteringSquare.create (Rectangle.getRightCenter preview);
       SizeAlteringSquare.create (Rectangle.getBottomLeft preview);
       SizeAlteringSquare.create (Rectangle.getBottomCenter preview);
       SizeAlteringSquare.create (Rectangle.getBottomRight preview) ] in
  showSizeAlteringSquares false
    (mk scene areaData preview squares false false false).

(** *** Public methods *)

Definition delete (this : t) : t * list Effect := (this, [Emit Delete]).

Definition select (value : bool) (this : t) : t :=
  if bool_decide (selected this = value) then this
  else showSizeAlteringSquares value (set_selected value this).

Definition setVisible (value : bool) (this : t) : t :=
  let this := set_preview (Rectangle.setVisible value (preview this)) this in
  if negb value then showSizeAlteringSquares false this else this.

Definition updatePreview (dataToModify : AtLeastId.t) (this : t) : t :=
  let this := set_areaData (Lodash.merge (areaData this) dataToModify) this in
  let a := areaData this in
  let this :=
    set_preview
      (Rectangle.set_x (AreaData.x a + AreaData.width a * 0.5) (preview this))
      this in
  let this :=
    set_preview
      (Rectangle.set_y (AreaData.y a + AreaData.height a * 0.5) (preview this))
      this in
  let this :=
    set_preview (Rectangle.set_displayWidth (AreaData.width a) (preview this))
                this in
  let this :=
    set_preview (Rectangle.set_displayHeight (AreaData.height a) (preview this))
                this in
  updateSquaresPositions this.

Definition setProperty (key : string) (value : Value) (this : t)
  : t * list Effect :=
  let a := areaData this in
  let this :=
    set_areaData
      {| AreaData.id := AreaData.id a;
         AreaData.name := AreaData.name a;
         AreaData.x := AreaData.x a;
         AreaData.y := AreaData.y a;
         AreaData.width := AreaData.width a;
         AreaData.height := AreaData.height a;
         AreaData.properties := <[ key := value ]> (AreaData.properties a) |}
      this in
  let data := AtLeastId.property (AreaData.id (getAreaData this)) key value in
  (this, [Emit (Update data)]).

Definition updateData (dataToChange : PartialAreaData.t) (this : t)
  : t * list Effect :=
  let data := AtLeastId.spread (AreaData.id (areaData this)) dataToChange in
  let this := updatePreview data this in
  (this, [Emit (Update data)]).

(** *** Event handlers bound by [bindEventHandlers] *)

(** [preview.on(POINTER_DOWN)]; [onCanvas] says whether the DOM target of
    the pointer event is the canvas. *)
Definition preview_on_pointer_down (onCanvas : bool) (this : t)
  : t * list Effect :=
  if negb onCanvas then (this, []) else (this, [Emit Clicked]).

(** [preview.on(DRAG)]; [isDown] is [pointer.isDown]. *)
Definition preview_on_drag (isDown : bool) (dragX dragY : Q) (this : t)
  : t * list Effect :=
  if isDown && selected this && negb (squareSelected this) then
    let this := set_preview (Rectangle.set_x dragX (preview this)) this in
    let this := set_preview (Rectangle.set_y dragY (preview this)) this in
    let this := updateSquaresPositions this in
    let this := set_moved true this in
    (this, markDirtyOrThrow this)
  else (this, []).

(** [preview.on(POINTER_UP)]. *)
Definition preview_on_pointer_up (this : t) : t * list Effect :=
  if selected this && moved this then
    let this := set_moved false this in
    let this := updateAreaDataWithSquaresAdjustments this in
    let data := geometryOf this in
    (this, [Emit (Update data)])
  else (this, []).

(** [square.on(SizeAlteringSquareEvent.Selected)]. *)
Definition square_on_selected (index : Edge) (this : t) : t * list Effect :=
  (set_squareSelected true this, []).

(** The four values a corner case of the [switch] assigns. *)
Record Resize := mkResize {
  newWidth : Q;
  newHeight : Q;
  newCenterX : Q;
  newCenterY : Q;
}.

(** The body of the edge-midpoint branch, whose [newWidth] and
    [newHeight] are constants of the branch's own block. *)
Definition edge_branch (index : Edge) (oldX oldY : Q) (this : t) : t :=
  let newWidth :=
    SizeAlteringSquare.x (square RightCenter this)
    - SizeAlteringSquare.x (square LeftCenter this) in
  let newHeight :=
    SizeAlteringSquare.y (square BottomCenter this)
    - SizeAlteringSquare.y (square TopCenter this) in
  let this :=
    if Qle_bool 32 newWidth then
      let this :=
        set_preview (Rectangle.set_displayWidth newWidth (preview this)) this in
      set_preview
        (Rectangle.set_x
           (SizeAlteringSquare.x (square LeftCenter this)
            + Rectangle.displayWidth (preview this) * 0.5) (preview this))
        this
    else update_square index (SizeAlteringSquare.set_x oldX) this in
  if Qle_bool 32 newHeight then
    let this :=
      set_preview (Rectangle.set_displayHeight newHeight (preview this)) this in
    set_preview
      (Rectangle.set_y
         (SizeAlteringSquare.y (square TopCenter this)
          + Rectangle.displayHeight (preview this) * 0.5) (preview this))
      this
  else update_square index (SizeAlteringSquare.set_y oldY) this.

(** The [switch (index)] of the other branch; no case matches an
    edge-midpoint index, which leaves the four variables at [0]. *)
Definition corner_switch (index : Edge) (this : t) : Resize :=
  let p := preview this in
  let sq := square index this in
  match index with
  | TopLeft =>
      let newWidth :=
        Vector2.x (Rectangle.getRightCenter p) - SizeAlteringSquare.x sq in
      let newHeight :=
        Vector2.y (Rectangle.getBottomCenter p) - SizeAlteringSquare.y sq in
      mkResize newWidth newHeight
        (SizeAlteringSquare.x sq + newWidth * 0.5)
        (SizeAlteringSquare.y sq + newHeight * 0.5)
  | TopRight =>
      let newWidth :=
        SizeAlteringSquare.x sq - Vector2.x (Rectangle.getLeftCenter p) in
      let newHeight :=
        Vector2.y (Rectangle.getBottomCenter p) - SizeAlteringSquare.y sq in
      mkResize newWidth newHeight
        (SizeAlteringSquare.x sq - newWidth * 0.5)
        (SizeAlteringSquare.y sq + newHeight * 0.5)
  | BottomLeft =>
      let newWidth :=
        Vector2.x (Rectangle.getRightCenter p) - SizeAlteringSquare.x sq in
      let newHeight :=
        SizeAlteringSquare.y sq - Vector2.y (Rectangle.getTopCenter p) in
      mkResize newWidth newHeight
        (SizeAlteringSquare.x sq + newWidth * 0.5)
        (SizeAlteringSquare.y sq - newHeight * 0.5)
  | BottomRight =>
      let newWidth :=
        SizeAlteringSquare.x sq - Vector2.x (Rectangle.getLeftCenter p) in
      let newHeight :=
        SizeAlteringSquare.y sq - Vector2.y (Rectangle.getTopCenter p) in
      mkResize newWidth newHeight
        (SizeAlteringSquare.x sq - newWidth * 0.5)
        (SizeAlteringSquare.y sq - newHeight * 0.5)
  | _ => mkResize 0 0 0 0
  end.

Definition is_edge_midpoint (index : Edge) : bool :=
  bool_decide (index ∈ [RightCenter; LeftCenter; TopCenter; BottomCenter]).

(** [square.on(DRAG)] of the square at [index]. *)
Definition square_on_drag (index : Edge) (dragX dragY : Q) (this : t)
  : t * list Effect :=
  let oldX := SizeAlteringSquare.x (square index this) in
  let oldY := SizeAlteringSquare.y (square index this) in
  let this := update_square index (SizeAlteringSquare.set_x dragX) this in
  let this := update_square index (SizeAlteringSquare.set_y dragY) this in
  let '(this, r) :=
    if is_edge_midpoint index
    then (edge_branch index oldX oldY this, mkResize 0 0 0 0)
    else (this, corner_switch index this) in
  let this :=
    if Qle_bool 32 (newWidth r) then
      let this :=
        set_preview (Rectangle.set_displayWidth (newWidth r) (preview this))
                    this in
      set_preview (Rectangle.set_x (newCenterX r) (preview this)) this
    else update_square index (SizeAlteringSquare.set_x oldX) this in
  let this :=
    if Qle_bool 32 (newHeight r) then
      let this :=
        set_preview (Rectangle.set_displayHeight (newHeight r) (preview this))
                    this in
      set_preview (Rectangle.set_y (newCenterY r) (preview this)) this
    else update_square index (SizeAlteringSquare.set_y oldY) this in
  let this := updateSquaresPositions this in
  (this, markDirtyOrThrow this).

(** [square.on(SizeAlteringSquareEvent.Released)]. *)
Definition square_on_released (index : Edge) (this : t) : t * list Effect :=
  let this := set_squareSelected false this in
  let this := updateAreaDataWithSquaresAdjustments this in
  let data := geometryOf this in
  (this, [Emit (Update data)]).

(** *** The component as a machine *)

(** Everything that can happen to a component after its construction: a
    call of a public method or the delivery of a pointer event. *)
Inductive Input :=
| Select (value : bool)
| SetVisible (value : bool)
| UpdatePreview (dataToModify : AtLeastId.t)
| SetProperty (key : string) (value : Value)
| UpdateData (dataToChange : PartialAreaData.t)
| DeleteCall
| PreviewPointerDown (onCanvas : bool)
| PreviewDrag (isDown : bool) (dragX dragY : Q)
| PreviewPointerUp
| SquareSelected (index : Edge)
| SquareDrag (index : Edge) (dragX dragY : Q)
| SquareReleased (index : Edge).

Definition step (i : Input) (this : t) : t * list Effect :=
  match i with
  | Select value => (select value this, [])
  | SetVisible value => (setVisible value this, [])
  | UpdatePreview d => (updatePreview d this, [])
  | SetProperty key value => setProperty key value this
  | UpdateData d => updateData d this
  | DeleteCall => delete this
  | PreviewPointerDown onCanvas => preview_on_pointer_down onCanvas this
  | PreviewDrag isDown dragX dragY => preview_on_drag isDown dragX dragY this
  | PreviewPointerUp => preview_on_pointer_up this
  | SquareSelected index => square_on_selected index this
  | SquareDrag index dragX dragY => square_on_drag index dragX dragY this
  | SquareReleased index => square_on_released index this
  end.

(** Inputs are handled one after the other, each to completion; a raise
    ends its handler only, after the mutations already made. *)
Fixpoint run (inputs : list Input) (this : t) : t * list Effect :=
  match inputs with
  | [] => (this, [])
  | i :: rest =>
      let '(this, out) := step i this in
      let '(this, out') := run rest this in
      (this, out ++ out')
  end.

(** A resize gesture on one handle: press, drag frames, release. *)
Definition resize_gesture (index : Edge) (frames : list (Q * Q)) : list Input :=
  SquareSelected index
  :: map (fun f => SquareDrag index (fst f) (snd f)) frames
  ++ [SquareReleased index].

End AreaPreview.

(** ** Vocabulary of the statements *)

(** The anchor getter that the constructor and [updateSquaresPositions]
    pair with each handle. *)
Definition anchor (e : Edge) : Rectangle.t -> Vector2.t :=
  match e with
  | TopLeft => Rectangle.getTopLeft
  | TopCenter => Rectangle.getTopCenter
  | TopRight => Rectangle.getTopRight
  | LeftCenter => Rectangle.getLeftCenter
  | RightCenter => Rectangle.getRightCenter
  | BottomLeft => Rectangle.getBottomLeft
  | BottomCenter => Rectangle.getBottomCenter
  | BottomRight => Rectangle.getBottomRight
  end.

(** Every handle sits on its anchor of the rectangle. *)
Definition handles_in_place (this : AreaPreview.t) : Prop :=
  forall e : Edge,
    SizeAlteringSquare.x (AreaPreview.square e this)
    = Vector2.x (anchor e (AreaPreview.preview this))
    /\ SizeAlteringSquare.y (AreaPreview.square e this)
       = Vector2.y (anchor e (AreaPreview.preview this)).

(** The states a component can be in: those obtained from a freshly
    constructed one by method calls and pointer events. *)
Definition reachable (this : AreaPreview.t) : Prop :=
  exists scene areaData inputs,
    this = fst (AreaPreview.run inputs (AreaPreview.constructor scene areaData)).

(** A visible handle belongs to a selected component whose rectangle is
    visible. *)
Definition handles_shown_rightly (this : AreaPreview.t) : Prop :=
  forall e,
    SizeAlteringSquare.visible (AreaPreview.square e this) = true ->
    AreaPreview.selected this = true
    /\ Rectangle.visible (AreaPreview.preview this) = true.

(** The events among the effects of a handler. *)
Definition emitted (out : list Effect) : list AreaPreviewEvent :=
  omap (fun o => match o with Emit ev => Some ev | _ => None end) out.

(** The width and height a drag frame of the handle at [index] computes
    before it checks them against the minimum: the two constants of the
    edge-midpoint branch, or the two extents assigned by the [switch]. *)
Definition attempted (index : Edge) (dragX dragY : Q) (this : AreaPreview.t)
  : Q * Q :=
  let this :=
    AreaPreview.update_square index (SizeAlteringSquare.set_x dragX) this in
  let this :=
    AreaPreview.update_square index (SizeAlteringSquare.set_y dragY) this in
  if AreaPreview.is_edge_midpoint index then
    (SizeAlteringSquare.x (AreaPreview.square RightCenter this)
     - SizeAlteringSquare.x (AreaPreview.square LeftCenter this),
     SizeAlteringSquare.y (AreaPreview.square BottomCenter this)
     - SizeAlteringSquare.y (AreaPreview.square TopCenter this))
  else
    (AreaPreview.newWidth (AreaPreview.corner_switch index this),
     AreaPreview.newHeight (AreaPreview.corner_switch index this)).


(** The number of nodes of a property value. *)
Fixpoint value_size (v : Value) : nat :=
  match v with
  | VObj fields =>
      S (map_fold (fun _ v' acc => (value_size v' + acc)%nat) 0%nat fields)
  | _ => 1%nat
  end.

(** Payloads and areas that agree field by field, numbers up to [==]. *)
Definition same_data (d d' : AtLeastId.t) : Prop :=
  AtLeastId.id d = AtLeastId.id d'
  /\ AtLeastId.name d = AtLeastId.name d'
  /\ option_Forall2 Qeq (AtLeastId.x d) (AtLeastId.x d')
  /\ option_Forall2 Qeq (AtLeastId.y d) (AtLeastId.y d')
  /\ option_Forall2 Qeq (AtLeastId.width d) (AtLeastId.width d')
  /\ option_Forall2 Qeq (AtLeastId.height d) (AtLeastId.height d')
  /\ AtLeastId.properties d = AtLeastId.properties d'.

Definition same_event (ev ev' : AreaPreviewEvent) : Prop :=
  match ev, ev' with
  | Update d, Update d' => same_data d d'
  | Clicked, Clicked | DoubleClicked, DoubleClicked | Delete, Delete => True
  | _, _ => False
  end.

Definition same_area (a a' : AreaData.t) : Prop :=
  AreaData.id a = AreaData.id a'
  /\ AreaData.name a = AreaData.name a'
  /\ AreaData.x a == AreaData.x a'
  /\ AreaData.y a == AreaData.y a'
  /\ AreaData.width a == AreaData.width a'
  /\ AreaData.height a == AreaData.height a'
  /\ AreaData.properties a = AreaData.properties a'.

(** *** The resize rules in the words of the specification *)








(** An edge-midpoint handle drags the horizontal axis ([LeftCenter],
    [RightCenter]) or the vertical one ([TopCenter], [BottomCenter]). *)
Definition drags_horizontally (e : Edge) : bool :=
  bool_decide (e ∈ [LeftCenter; RightCenter]).

Definition drags_vertically (e : Edge) : bool :=
  bool_decide (e ∈ [TopCenter; BottomCenter]).


(** The area of the scenarios: id ["a1"], a 100 by 100 square at the
    origin. *)
Definition area_a1 : AreaData.t :=
  AreaData.mk "a1" "a1" 0 0 100 100 ∅.


(** *** A drag frame in closed form *)

(** The component once the dragged handle has taken the pointer's
    coordinates, before anything is computed from them. *)
Definition moved_handle (index : Edge) (dragX dragY : Q) (this : AreaPreview.t)
  : AreaPreview.t :=
  AreaPreview.update_square index (SizeAlteringSquare.set_y dragY)
    (AreaPreview.update_square index (SizeAlteringSquare.set_x dragX) this).

(** The rectangle a drag frame leaves behind, written as one expression;
    [square_on_drag_eq] below shows that the handler computes it. *)
Definition resized (index : Edge) (dragX dragY : Q) (this : AreaPreview.t)
  : Rectangle.t :=
  let p := AreaPreview.preview this in
  let st := moved_handle index dragX dragY this in
  let w := fst (attempted index dragX dragY this) in
  let h := snd (attempted index dragX dragY this) in
  let r := AreaPreview.corner_switch index st in
  let cx :=
    if AreaPreview.is_edge_midpoint index
    then SizeAlteringSquare.x (AreaPreview.square LeftCenter st) + w * 0.5
    else AreaPreview.newCenterX r in
  let cy :=
    if AreaPreview.is_edge_midpoint index
    then SizeAlteringSquare.y (AreaPreview.square TopCenter st) + h * 0.5
    else AreaPreview.newCenterY r in
  Rectangle.mk
    (if Qle_bool 32 w then cx else Rectangle.x p)
    (if Qle_bool 32 h then cy else Rectangle.y p)
    (if Qle_bool 32 w then w else Rectangle.displayWidth p)
    (if Qle_bool 32 h then h else Rectangle.displayHeight p)
    (Rectangle.visible p).

(** ** Basic facts *)

(** Name the fields of a component, its rectangle and its eight handles. *)
Ltac open_state this :=
  let sq := fresh "sq" in
  destruct this as [? ? [? ? ? ? ?] sq ? ? ?];
  inv_vec sq; intros.

(** Case analysis on every comparison against the minimum size. *)
Ltac split_tests :=
  repeat match goal with
    | |- context [Qle_bool ?a ?b] => destruct (Qle_bool a b) eqn:?
    end.

(** Evaluate the code, leaving the arithmetic on numbers symbolic. *)
Ltac run_code := cbv -[Qplus Qminus Qmult Qdiv Qle_bool Qeq Qle Qlt].

Section Basics.
Import AreaPreview.

Lemma updateSquaresPositions_square (e : Edge) (this : t) :
  square e (updateSquaresPositions this)
  = SizeAlteringSquare.setPosition
      (Vector2.x (anchor e (preview this)))
      (Vector2.y (anchor e (preview this)))
      (square e this).
Proof. open_state this. destruct e; run_code; reflexivity. Qed.

Lemma updateSquaresPositions_frame (this : t) :
  updateSquaresPositions this
  = set_squares (squares (updateSquaresPositions this)) this.
Proof. open_state this. run_code. reflexivity. Qed.

Lemma updateSquaresPositions_preview (this : t) :
  preview (updateSquaresPositions this) = preview this.
Proof. rewrite updateSquaresPositions_frame. reflexivity. Qed.

Lemma updateSquaresPositions_in_place (this : t) :
  handles_in_place (updateSquaresPositions this).
Proof.
  intros e. rewrite updateSquaresPositions_square, updateSquaresPositions_preview.
  split; reflexivity.
Qed.

Lemma showSizeAlteringSquares_square (e : Edge) (show : bool) (this : t) :
  square e (showSizeAlteringSquares show this)
  = if show && negb (Rectangle.visible (preview this))
    then square e this
    else SizeAlteringSquare.setVisible show (square e this).
Proof.
  unfold showSizeAlteringSquares.
  destruct (show && negb _); [reflexivity|].
  unfold square. cbn. apply vlookup_map.
Qed.

Lemma showSizeAlteringSquares_preview (show : bool) (this : t) :
  preview (showSizeAlteringSquares show this) = preview this.
Proof. unfold showSizeAlteringSquares. destruct (show && negb _); reflexivity. Qed.

(** One drag frame: the rectangle becomes [resized], every handle is put
    back on its anchor, and the scene is told (or the handler raises). *)
Lemma square_on_drag_eq (index : Edge) (dragX dragY : Q) (this : t) :
  square_on_drag index dragX dragY this
  = (updateSquaresPositions (set_preview (resized index dragX dragY this) this),
     markDirtyOrThrow this).
Proof.
  open_state this.
  destruct index;
    cbv -[updateSquaresPositions Qplus Qminus Qmult Qle_bool];
    try change (Qle_bool 32 0) with false; cbv iota;
    split_tests; run_code; reflexivity.
Qed.

Lemma run_app (l1 l2 : list Input) (this : t) :
  run (l1 ++ l2) this
  = (fst (run l2 (fst (run l1 this))),
     snd (run l1 this) ++ snd (run l2 (fst (run l1 this)))).
Proof.
  revert this. induction l1 as [|i l1 IH]; intros this; simpl.
  - destruct (run l2 this); reflexivity.
  - destruct (step i this) as [s1 o1]. rewrite IH.
    destruct (run l1 s1) as [s2 o2]. simpl.
    rewrite <- app_assoc. reflexivity.
Qed.

Lemma run_cons (i : Input) (l : list Input) (this : t) :
  run (i :: l) this
  = (fst (run l (fst (step i this))),
     snd (step i this) ++ snd (run l (fst (step i this)))).
Proof.
  simpl. destruct (step i this) as [s1 o1]. simpl.
  destruct (run l s1); reflexivity.
Qed.

(** An invariant of [step] that holds after construction holds in every
    reachable state. *)
Lemma reachable_ind (P : t -> Prop) :
  (forall scene areaData, P (constructor scene areaData)) ->
  (forall i this, P this -> P (fst (step i this))) ->
  forall this, reachable this -> P this.
Proof.
  intros Hinit Hstep this (scene & a & inputs & ->).
  generalize (Hinit scene a). generalize (constructor scene a).
  induction inputs as [|i l IH]; intros s Hs; [exact Hs|].
  rewrite run_cons. simpl. apply IH, Hstep, Hs.
Qed.


End Basics.

(** ** Handles follow the rectangle *)

Section Invariants.
Import AreaPreview.

Lemma anchor_setVisible (e : Edge) (v : bool) (r : Rectangle.t) :
  anchor e (Rectangle.setVisible v r) = anchor e r.
Proof. destruct e; reflexivity. Qed.

Lemma constructor_in_place (scene : Scene) (areaData : AreaData.t) :
  handles_in_place (constructor scene areaData).
Proof. intros e. destruct e; run_code; split; reflexivity. Qed.

Lemma updatePreview_eq (d : AtLeastId.t) (this : t) :
  updatePreview d this
  = updateSquaresPositions
      (set_preview
         (Rectangle.mk
            (AreaData.x (Lodash.merge (areaData this) d)
             + AreaData.width (Lodash.merge (areaData this) d) * 0.5)
            (AreaData.y (Lodash.merge (areaData this) d)
             + AreaData.height (Lodash.merge (areaData this) d) * 0.5)
            (AreaData.width (Lodash.merge (areaData this) d))
            (AreaData.height (Lodash.merge (areaData this) d))
            (Rectangle.visible (preview this)))
         (set_areaData (Lodash.merge (areaData this) d) this)).
Proof. reflexivity. Qed.

Lemma preview_on_drag_eq (isDown : bool) (dragX dragY : Q) (this : t) :
  preview_on_drag isDown dragX dragY this
  = if isDown && selected this && negb (squareSelected this)
    then (set_moved true
            (updateSquaresPositions
               (set_preview
                  (Rectangle.set_y dragY (Rectangle.set_x dragX (preview this)))
                  this)),
          markDirtyOrThrow this)
    else (this, []).
Proof.
  open_state this.
  destruct isDown, selected0, squareSelected0; run_code; reflexivity.
Qed.

Lemma handles_in_place_ext (a b : t) :
  squares a = squares b -> preview a = preview b ->
  handles_in_place a -> handles_in_place b.
Proof.
  unfold handles_in_place, square. intros <- <- H. exact H.
Qed.

Lemma handles_in_place_set_moved (v : bool) (this : t) :
  handles_in_place this -> handles_in_place (set_moved v this).
Proof. intros H e. exact (H e). Qed.

Lemma step_in_place (i : Input) (this : t) :
  handles_in_place this -> handles_in_place (fst (step i this)).
Proof.
  intros H. destruct i; simpl.
  - unfold select. destruct (bool_decide _); [exact H|].
    intros e. rewrite showSizeAlteringSquares_square, showSizeAlteringSquares_preview.
    destruct (_ && _); apply H.
  - unfold setVisible. destruct value; cbn [negb]; cbv zeta; intros e.
    + cbn. rewrite anchor_setVisible. apply H.
    + rewrite showSizeAlteringSquares_square, showSizeAlteringSquares_preview.
      cbn. rewrite anchor_setVisible. apply H.
  - rewrite updatePreview_eq. apply updateSquaresPositions_in_place.
  - exact H.
  - unfold updateData. cbn [fst]. rewrite updatePreview_eq.
    apply updateSquaresPositions_in_place.
  - exact H.
  - unfold preview_on_pointer_down. destruct (negb _); exact H.
  - rewrite preview_on_drag_eq. destruct (_ && _); [|exact H].
    cbn [fst]. apply handles_in_place_set_moved, updateSquaresPositions_in_place.
  - unfold preview_on_pointer_up. destruct (_ && _); exact H.
  - exact H.
  - rewrite square_on_drag_eq. apply updateSquaresPositions_in_place.
  - exact H.
Qed.

Lemma reachable_in_place (this : t) : reachable this -> handles_in_place this.
Proof.
  apply reachable_ind; [apply constructor_in_place | apply step_in_place].
Qed.
End Invariants.
(** ** Drag frames of a handle *)

Section Frames.
Import AreaPreview.








(** What a whole gesture leaves behind, in terms of its drag frames. *)
Lemma resize_gesture_state (index : Edge) (frames : list (Q * Q)) (this : t) :
  fst (run (resize_gesture index frames) this)
  = fst (square_on_released index
           (fst (run (map (fun f => SquareDrag index (fst f) (snd f)) frames)
                     (set_squareSelected true this)))).
Proof.
  unfold resize_gesture. rewrite run_cons. cbn [fst step square_on_selected].
  rewrite run_app. cbn [fst]. reflexivity.
Qed.

End Frames.

(** ** C1: the committed size after a resize *)

Section MinimumSize.
Import AreaPreview.




End MinimumSize.
(** ** C2: the minimum-size policy of a drag frame *)

Section MinimumSizePolicy.
Import AreaPreview.







End MinimumSizePolicy.
(** ** Gestures *)

Section Gestures.
Import AreaPreview.


(** A property kept by every drag frame of a handle is kept by a run of
    such frames. *)
Lemma drags_invariant (P : t -> Prop) (index : Edge) (frames : list (Q * Q))
    (this : t) :
  (forall s dragX dragY, P s -> P (fst (square_on_drag index dragX dragY s))) ->
  P this ->
  P (fst (run (map (fun f => SquareDrag index (fst f) (snd f)) frames) this)).
Proof.
  intros Hstep. revert this.
  induction frames as [|f frames IH]; intros this H; [exact H|].
  cbn [map]. rewrite run_cons. cbn [fst step]. apply IH, Hstep, H.
Qed.


End Gestures.

(** ** C3: corner handles *)

Section Corners.
Import AreaPreview.






End Corners.
(** ** C4 and C5: edge-midpoint handles *)

Section EdgeMidpoints.
Import AreaPreview.







End EdgeMidpoints.
(** ** C6: moving the rectangle *)

Section Move.
Import AreaPreview.

(** C6: when the body of a selected rectangle is dragged with the pointer
    down and no handle active, the centre takes the pointer's coordinates
    and the move is remembered; the release then stores x, y, width and
    height recomputed from the centre and the size, emits one Update
    carrying the id and exactly these four fields, and forgets the move.
    Moving the 100 by 100 area at the origin to centre (80, 80) emits
    x 30, y 30, width 100, height 100. *)
Theorem move_commit :
  (forall (dragX dragY : Q) (this : t),
      selected this = true ->
      squareSelected this = false ->
      let dragged := fst (preview_on_drag true dragX dragY this) in
      let released := preview_on_pointer_up dragged in
      let w := Rectangle.displayWidth (preview this) in
      let h := Rectangle.displayHeight (preview this) in
      moved dragged = true
      /\ Rectangle.x (preview dragged) = dragX
      /\ Rectangle.y (preview dragged) = dragY
      /\ Rectangle.displayWidth (preview dragged) = w
      /\ Rectangle.displayHeight (preview dragged) = h
      /\ getAreaData (fst released)
         = AreaData.mk (getId this) (getName this)
             (dragX - w * 0.5) (dragY - h * 0.5) w h
             (AreaData.properties (getAreaData this))
      /\ snd released
         = [Emit (Update
                    (AtLeastId.mk (getId this) None
                       (Some (dragX - w * 0.5)) (Some (dragY - h * 0.5))
                       (Some w) (Some h) None))]
      /\ moved (fst released) = false)
  /\ (let final :=
        run [Select true; PreviewDrag true 80 80; PreviewPointerUp]
            (constructor GameScene area_a1) in
      same_area (getAreaData (fst final)) (AreaData.mk "a1" "a1" 30 30 100 100 ∅)
      /\ Forall2 same_event (emitted (snd final))
           [Update (AtLeastId.geometry "a1" 30 30 100 100)]
      /\ moved (fst final) = false).
Proof.
  split.
  - intros dragX dragY this Hsel Hsq. open_state this.
    cbn in Hsel, Hsq. subst. run_code. repeat split.
  - vm_compute. split; [repeat split; reflexivity|].
    split; [repeat constructor; reflexivity | reflexivity].
Qed.

Lemma move_commit_witness :
  let this := select true (constructor GameScene area_a1) in
  let dragged := fst (preview_on_drag true 80 80 this) in
  selected this = true
  /\ squareSelected this = false
  /\ moved dragged = true
  /\ moved (fst (preview_on_pointer_up dragged)) = false.
Proof.
  assert (Hs : selected (select true (constructor GameScene area_a1)) = true)
    by reflexivity.
  assert (Hq : squareSelected (select true (constructor GameScene area_a1))
               = false) by reflexivity.
  split; [exact Hs|]. split; [exact Hq|].
  pose proof (proj1 move_commit 80 80
                (select true (constructor GameScene area_a1)) Hs Hq) as H.
  cbv zeta in H. split; apply H.
Defined.

End Move.

(** ** C7, C8 and C10: updates that do not come from the pointer *)

Section Updates.
Import AreaPreview.

Lemma merge_fields_lookup (object source : gmap string Value) (key : string) :
  Lodash.merge_fields object source !! key
  = match source !! key with
    | Some srcValue =>
        Some (match object !! key with
              | Some objValue => Lodash.merge_value objValue srcValue
              | None => srcValue
              end)
    | None => object !! key
    end.
Proof.
  unfold Lodash.merge_fields. cbn [Lodash.merge_value].
  rewrite lookup_union, map_lookup_imap.
  destruct (source !! key) as [sv|]; cbn.
  - destruct (object !! key); reflexivity.
  - destruct (object !! key); reflexivity.
Qed.


(** The state [updatePreview] leaves behind. *)
Lemma updatePreview_state (d : AtLeastId.t) (this : t) :
  let this' := updatePreview d this in
  let a' := Lodash.merge (getAreaData this) d in
  getAreaData this' = a'
  /\ preview this'
     = Rectangle.mk (AreaData.x a' + AreaData.width a' * 0.5)
         (AreaData.y a' + AreaData.height a' * 0.5)
         (AreaData.width a') (AreaData.height a')
         (Rectangle.visible (preview this))
  /\ handles_in_place this'.
Proof.
  cbv zeta. rewrite updatePreview_eq.
  split; [|split].
  - rewrite updateSquaresPositions_frame. reflexivity.
  - rewrite updateSquaresPositions_preview. reflexivity.
  - apply updateSquaresPositions_in_place.
Qed.



(** C8: [setProperty] writes the one entry [key] of the stored
    properties, leaves every other entry, every other field of the area,
    the rectangle and the handles as they are, and emits one Update whose
    payload is the id and a properties object holding [key] alone. *)
Theorem setProperty_minimal_diff (key : string) (value : Value) (this : t) :
  let this' := fst (setProperty key value this) in
  let a := getAreaData this in
  let a' := getAreaData this' in
  AreaData.properties a' !! key = Some value
  /\ (forall k, k <> key ->
         AreaData.properties a' !! k = AreaData.properties a !! k)
  /\ AreaData.id a' = AreaData.id a
  /\ AreaData.name a' = AreaData.name a
  /\ AreaData.x a' = AreaData.x a
  /\ AreaData.y a' = AreaData.y a
  /\ AreaData.width a' = AreaData.width a
  /\ AreaData.height a' = AreaData.height a
  /\ preview this' = preview this
  /\ squares this' = squares this
  /\ snd (setProperty key value this)
     = [Emit (Update
                (AtLeastId.mk (getId this) None None None None None
                   (Some {[ key := value ]})))]
  /\ snd (setProperty "color" (VStr "red") (constructor GameScene area_a1))
     = [Emit (Update
                (AtLeastId.mk "a1" None None None None None
                   (Some {[ "color"%string := VStr "red" ]})))].
Proof.
  cbv zeta. unfold setProperty. cbn.
  split; [apply lookup_insert_eq|].
  split; [intros k Hk; apply lookup_insert_ne; congruence|].
  repeat split.
Qed.

Lemma setProperty_minimal_diff_witness :
  let this := constructor GameScene area_a1 in
  let this' := fst (setProperty "color" (VStr "red") this) in
  "silent"%string <> "color"%string
  /\ AreaData.properties (getAreaData this') !! "silent"%string
     = AreaData.properties (getAreaData this) !! "silent"%string.
Proof.
  assert (Hne : "silent"%string <> "color"%string) by discriminate.
  split; [exact Hne|].
  exact (proj1 (proj2 (setProperty_minimal_diff "color" (VStr "red")
                         (constructor GameScene area_a1)))
           "silent"%string Hne).
Defined.

(** C10: [updateData] does to the component what [updatePreview] does
    with the patch completed by the stored id (an id carried by the patch
    wins), hence the same merge and the same handle positions, and it
    also emits one Update whose payload is that completed patch: the id
    and exactly the fields of the given patch. *)
Theorem updateData_updates_and_notifies
    (dataToChange : PartialAreaData.t) (this : t) :
  let data := AtLeastId.spread (getId this) dataToChange in
  let this' := fst (updateData dataToChange this) in
  this' = updatePreview data this
  /\ this' = fst (step (UpdatePreview data) this)
  /\ snd (step (UpdatePreview data) this) = []
  /\ snd (updateData dataToChange this) = [Emit (Update data)]
  /\ AtLeastId.id data = default (getId this) (PartialAreaData.id dataToChange)
  /\ AtLeastId.name data = PartialAreaData.name dataToChange
  /\ AtLeastId.x data = PartialAreaData.x dataToChange
  /\ AtLeastId.y data = PartialAreaData.y dataToChange
  /\ AtLeastId.width data = PartialAreaData.width dataToChange
  /\ AtLeastId.height data = PartialAreaData.height dataToChange
  /\ AtLeastId.properties data = PartialAreaData.properties dataToChange
  /\ getAreaData this' = Lodash.merge (getAreaData this) data
  /\ handles_in_place this'
  /\ (PartialAreaData.id dataToChange = None -> getId this' = getId this).
Proof.
  cbv zeta. unfold updateData. cbn [fst snd step].
  destruct (updatePreview_state
              (AtLeastId.spread (getId this) dataToChange) this)
    as (Ha & _ & Hplace).
  cbv zeta in Ha.
  change (AreaData.id (areaData this)) with (getId this).
  split; [reflexivity|]. split; [reflexivity|]. split; [reflexivity|].
  split; [reflexivity|]. split; [reflexivity|]. split; [reflexivity|].
  split; [reflexivity|]. split; [reflexivity|]. split; [reflexivity|].
  split; [reflexivity|]. split; [reflexivity|].
  split; [exact Ha|]. split; [exact Hplace|].
  intros Hn. unfold getId at 1. change areaData with getAreaData.
  rewrite Ha. cbn. rewrite Hn. reflexivity.
Qed.

Lemma updateData_updates_and_notifies_witness :
  let d :=
    PartialAreaData.mk None None (Some 10) None (Some 64) None None in
  let this := constructor GameScene area_a1 in
  PartialAreaData.id d = None
  /\ getId (fst (updateData d this)) = getId this.
Proof.
  split; [reflexivity|].
  apply (updateData_updates_and_notifies
           (PartialAreaData.mk None None (Some 10) None (Some 64) None None)
           (constructor GameScene area_a1)).
  reflexivity.
Defined.

End Updates.
(** ** C9: visibility of the handles *)

Section Visibility.
Import AreaPreview.

Lemma updateSquaresPositions_selected (this : t) :
  selected (updateSquaresPositions this) = selected this.
Proof. rewrite updateSquaresPositions_frame. reflexivity. Qed.

Lemma updateSquaresPositions_visible (e : Edge) (this : t) :
  SizeAlteringSquare.visible (square e (updateSquaresPositions this))
  = SizeAlteringSquare.visible (square e this).
Proof. rewrite updateSquaresPositions_square. reflexivity. Qed.

Lemma showSizeAlteringSquares_selected (show : bool) (this : t) :
  selected (showSizeAlteringSquares show this) = selected this.
Proof. unfold showSizeAlteringSquares. destruct (show && negb _); reflexivity. Qed.

(** Repositioning the handles of a component whose rectangle has been
    replaced by one of the same visibility keeps [handles_shown_rightly]. *)
Lemma repositioned_shown_rightly (p : Rectangle.t) (this : t) :
  Rectangle.visible p = Rectangle.visible (preview this) ->
  handles_shown_rightly this ->
  handles_shown_rightly (updateSquaresPositions (set_preview p this)).
Proof.
  intros Hv H e.
  rewrite updateSquaresPositions_visible, updateSquaresPositions_selected,
    updateSquaresPositions_preview.
  cbn [preview set_preview selected]. rewrite Hv. apply (H e).
Qed.

Lemma constructor_hidden (scene : Scene) (areaData : AreaData.t) (e : Edge) :
  SizeAlteringSquare.visible (square e (constructor scene areaData)) = false.
Proof. destruct e; reflexivity. Qed.

Lemma select_shown_rightly (value : bool) (this : t) :
  handles_shown_rightly this -> handles_shown_rightly (select value this).
Proof.
  intros H. unfold select.
  destruct (bool_decide (selected this = value)) eqn:E; [exact H|].
  apply bool_decide_eq_false in E.
  intros e.
  rewrite showSizeAlteringSquares_square, showSizeAlteringSquares_selected,
    showSizeAlteringSquares_preview.
  cbn [preview set_selected selected].
  destruct value, (Rectangle.visible (preview this)) eqn:Ev; cbn.
  - intros _. split; reflexivity.
  - intros Hs. destruct (H e Hs) as [Hsel _]. contradiction.
  - discriminate.
  - discriminate.
Qed.

Lemma setVisible_shown_rightly (value : bool) (this : t) :
  handles_shown_rightly this -> handles_shown_rightly (setVisible value this).
Proof.
  intros H. unfold setVisible. destruct value; cbn [negb]; cbv zeta; intros e.
  - cbn. intros Hs. destruct (H e Hs) as [Hsel _]. split; [exact Hsel|reflexivity].
  - rewrite showSizeAlteringSquares_square. cbn. discriminate.
Qed.

Lemma shown_rightly_set_moved (v : bool) (this : t) :
  handles_shown_rightly this -> handles_shown_rightly (set_moved v this).
Proof. intros H e. exact (H e). Qed.

Lemma step_shown_rightly (i : Input) (this : t) :
  handles_shown_rightly this -> handles_shown_rightly (fst (step i this)).
Proof.
  intros H. destruct i; cbn [step fst].
  - apply select_shown_rightly, H.
  - apply setVisible_shown_rightly, H.
  - rewrite updatePreview_eq.
    apply (repositioned_shown_rightly _ (set_areaData _ this)); [reflexivity|exact H].
  - exact H.
  - unfold updateData. cbn [fst]. rewrite updatePreview_eq.
    apply (repositioned_shown_rightly _ (set_areaData _ this)); [reflexivity|exact H].
  - exact H.
  - unfold preview_on_pointer_down. destruct (negb _); exact H.
  - rewrite preview_on_drag_eq. destruct (_ && _); [|exact H]. cbn [fst].
    apply shown_rightly_set_moved, repositioned_shown_rightly;
      [reflexivity|exact H].
  - unfold preview_on_pointer_up. destruct (_ && _); exact H.
  - exact H.
  - rewrite square_on_drag_eq. cbn [fst].
    apply repositioned_shown_rightly; [reflexivity|exact H].
  - exact H.
Qed.

Lemma reachable_shown_rightly (this : t) :
  reachable this -> handles_shown_rightly this.
Proof.
  apply reachable_ind; [|apply step_shown_rightly].
  intros scene a e. rewrite constructor_hidden. discriminate.
Qed.

(** C9, as stated, fails: after selecting, hiding the rectangle and
    showing it again, the component is selected and its rectangle is
    visible, yet every handle is hidden, since [setVisible(true)] never
    shows handles. *)
Lemma handles_hidden_though_selected_and_visible :
  let this :=
    fst (run [Select true; SetVisible false; SetVisible true]
             (constructor GameScene area_a1)) in
  selected this = true
  /\ Rectangle.visible (preview this) = true
  /\ (forall e, SizeAlteringSquare.visible (square e this) = false)
  /\ ~ (SizeAlteringSquare.visible (square TopLeft this) = true
        <-> selected this = true /\ Rectangle.visible (preview this) = true).
Proof.
  cbv zeta. split; [reflexivity|]. split; [reflexivity|].
  split; [intros e; destruct e; reflexivity|].
  intros [_ H]. specialize (H (conj eq_refl eq_refl)). discriminate H.
Qed.

(** C9, amended: in every reachable state a handle is visible only if the
    component is selected and its rectangle is visible.  Handles are
    hidden after construction; selecting while the rectangle is hidden
    leaves them as they are; selecting an unselected component whose
    rectangle is visible shows them; unselecting hides them; hiding the
    rectangle hides them; and selecting twice is selecting once. *)
Theorem handles_visible_only_if_selected_and_visible :
  (forall this e,
      reachable this ->
      SizeAlteringSquare.visible (square e this) = true ->
      selected this = true /\ Rectangle.visible (preview this) = true)
  /\ (forall scene areaData e,
         SizeAlteringSquare.visible (square e (constructor scene areaData))
         = false)
  /\ (forall this e,
         Rectangle.visible (preview this) = false ->
         SizeAlteringSquare.visible (square e (select true this))
         = SizeAlteringSquare.visible (square e this))
  /\ (forall this e,
         selected this = false ->
         Rectangle.visible (preview this) = true ->
         SizeAlteringSquare.visible (square e (select true this)) = true)
  /\ (forall this e,
         selected this = true ->
         SizeAlteringSquare.visible (square e (select false this)) = false)
  /\ (forall this e,
         SizeAlteringSquare.visible (square e (setVisible false this)) = false)
  /\ (forall value this, select value (select value this) = select value this).
Proof.
  split; [|split; [|split; [|split; [|split; [|split]]]]].
  - intros this e Hr. apply (reachable_shown_rightly this Hr e).
  - apply constructor_hidden.
  - intros this e Hv. unfold select.
    destruct (bool_decide _); [reflexivity|].
    rewrite showSizeAlteringSquares_square. cbn [preview set_selected].
    rewrite Hv. reflexivity.
  - intros this e Hs Hv. unfold select. rewrite Hs.
    rewrite bool_decide_eq_false_2 by discriminate.
    rewrite showSizeAlteringSquares_square. cbn [preview set_selected].
    rewrite Hv. reflexivity.
  - intros this e Hs. unfold select. rewrite Hs.
    rewrite bool_decide_eq_false_2 by discriminate.
    rewrite showSizeAlteringSquares_square. reflexivity.
  - intros this e. unfold setVisible. cbn [negb]. cbv zeta.
    rewrite showSizeAlteringSquares_square. reflexivity.
  - intros value this. unfold select.
    destruct (bool_decide (selected this = value)) eqn:E; cbv iota;
      [rewrite E; reflexivity|].
    rewrite showSizeAlteringSquares_selected. cbn [selected set_selected].
    rewrite bool_decide_eq_true_2 by reflexivity. reflexivity.
Qed.

Lemma handles_visible_only_if_selected_and_visible_witness :
  let this := select true (constructor GameScene area_a1) in
  reachable this
  /\ SizeAlteringSquare.visible (square TopLeft this) = true
  /\ selected this = true
  /\ Rectangle.visible (preview this) = true.
Proof.
  assert (Hr : reachable (select true (constructor GameScene area_a1)))
    by (exists GameScene, area_a1, [Select true]; reflexivity).
  assert (Hv : SizeAlteringSquare.visible
                 (square TopLeft (select true (constructor GameScene area_a1)))
               = true) by reflexivity.
  split; [exact Hr|]. split; [exact Hv|].
  exact (proj1 handles_visible_only_if_selected_and_visible
           (select true (constructor GameScene area_a1)) TopLeft Hr Hv).
Defined.

End Visibility.
(** ** Further properties of the component *)

Section Reachable.
Import AreaPreview.

(** X1: after construction and after any sequence of method calls and
    pointer events, each of the eight handles is at the anchor of the
    rectangle that [updateSquaresPositions] pairs it with; in particular
    the mid-drag coordinates of a dragged handle never survive the
    handler that set them. *)
Theorem handles_on_anchors_always
    (scene : Scene) (areaData : AreaData.t) (inputs : list Input) (e : Edge) :
  let this := fst (run inputs (constructor scene areaData)) in
  SizeAlteringSquare.x (square e this) = Vector2.x (anchor e (preview this))
  /\ SizeAlteringSquare.y (square e this) = Vector2.y (anchor e (preview this)).
Proof.
  cbv zeta. apply reachable_in_place. exists scene, areaData, inputs.
  reflexivity.
Qed.

Lemma square_set_moved (e : Edge) (v : bool) (this : t) :
  square e (set_moved v this) = square e this.
Proof. reflexivity. Qed.

Lemma step_same_visibility (i : Input) (this : t) :
  (forall e e', SizeAlteringSquare.visible (square e this)
                = SizeAlteringSquare.visible (square e' this)) ->
  forall e e', SizeAlteringSquare.visible (square e (fst (step i this)))
               = SizeAlteringSquare.visible (square e' (fst (step i this))).
Proof.
  intros H e e'. destruct i; cbn [step fst]; try apply H.
  - unfold select. destruct (bool_decide _); [apply H|].
    rewrite !showSizeAlteringSquares_square. destruct (_ && _); [apply H|].
    reflexivity.
  - unfold setVisible. destruct value; cbn [negb]; cbv zeta; [apply H|].
    rewrite !showSizeAlteringSquares_square. reflexivity.
  - rewrite updatePreview_eq, !updateSquaresPositions_visible. apply H.
  - unfold updateData. cbn [fst].
    rewrite updatePreview_eq, !updateSquaresPositions_visible. apply H.
  - unfold preview_on_pointer_down. destruct (negb _); apply H.
  - rewrite preview_on_drag_eq. destruct (_ && _); [|apply H]. cbn [fst].
    rewrite !square_set_moved.
    rewrite !updateSquaresPositions_visible. apply H.
  - unfold preview_on_pointer_up. destruct (_ && _); apply H.
  - rewrite square_on_drag_eq. cbn [fst].
    rewrite !updateSquaresPositions_visible. apply H.
Qed.

(** X2: in every reachable state the eight handles are all visible or
    all hidden. *)
Theorem handles_share_visibility
    (scene : Scene) (areaData : AreaData.t) (inputs : list Input) (e e' : Edge) :
  let this := fst (run inputs (constructor scene areaData)) in
  SizeAlteringSquare.visible (square e this)
  = SizeAlteringSquare.visible (square e' this).
Proof.
  cbv zeta. revert e e'.
  apply (reachable_ind
           (fun s => forall e e', SizeAlteringSquare.visible (square e s)
                                  = SizeAlteringSquare.visible (square e' s))).
  - intros sc a e e'. rewrite !constructor_hidden. reflexivity.
  - apply step_same_visibility.
  - exists scene, areaData, inputs. reflexivity.
Qed.

End Reachable.

Section Commits.
Import AreaPreview.

Lemma square_on_drag_others (index : Edge) (dragX dragY : Q) (this : t) :
  let this' := fst (square_on_drag index dragX dragY this) in
  scene this' = scene this /\ areaData this' = areaData this
  /\ selected this' = selected this /\ moved this' = moved this
  /\ squareSelected this' = squareSelected this.
Proof.
  cbv zeta. rewrite square_on_drag_eq. cbn [fst].
  rewrite updateSquaresPositions_frame. repeat split.
Qed.

Lemma preview_on_drag_others (isDown : bool) (dragX dragY : Q) (this : t) :
  let this' := fst (preview_on_drag isDown dragX dragY this) in
  scene this' = scene this /\ areaData this' = areaData this
  /\ selected this' = selected this
  /\ squareSelected this' = squareSelected this
  /\ Rectangle.displayWidth (preview this')
     = Rectangle.displayWidth (preview this)
  /\ Rectangle.displayHeight (preview this')
     = Rectangle.displayHeight (preview this)
  /\ Rectangle.visible (preview this') = Rectangle.visible (preview this).
Proof.
  cbv zeta. rewrite preview_on_drag_eq.
  destruct (_ && _); [|repeat split]. cbn [fst].
  rewrite updateSquaresPositions_frame. repeat split.
Qed.

Lemma drags_others (index : Edge) (frames : list (Q * Q)) (this : t) :
  let this' :=
    fst (run (map (fun f => SquareDrag index (fst f) (snd f)) frames) this) in
  scene this' = scene this /\ areaData this' = areaData this
  /\ selected this' = selected this /\ moved this' = moved this
  /\ squareSelected this' = squareSelected this.
Proof.
  cbv zeta.
  apply (drags_invariant
           (fun s => scene s = scene this /\ areaData s = areaData this
                     /\ selected s = selected this /\ moved s = moved this
                     /\ squareSelected s = squareSelected this));
    [|repeat split].
  intros s dx dy (H1 & H2 & H3 & H4 & H5).
  destruct (square_on_drag_others index dx dy s) as (E1 & E2 & E3 & E4 & E5).
  rewrite E1, E2, E3, E4, E5. repeat split; assumption.
Qed.

Lemma emitted_app (out out' : list Effect) :
  emitted (out ++ out') = emitted out ++ emitted out'.
Proof. apply omap_app. Qed.

Lemma drags_emit_nothing (index : Edge) (frames : list (Q * Q)) (this : t) :
  emitted
    (snd (run (map (fun f => SquareDrag index (fst f) (snd f)) frames) this))
  = [].
Proof.
  revert this. induction frames as [|f frames IH]; intros this; [reflexivity|].
  cbn [map]. rewrite run_cons. cbn [snd step]. rewrite emitted_app, IH.
  rewrite square_on_drag_eq. cbn [snd]. unfold markDirtyOrThrow.
  destruct (scene this); reflexivity.
Qed.

(** X3: while a handle is being dragged the stored area is the one from
    before the gesture, whatever the frames did to the rectangle; the
    release then rewrites x, y, width and height from the rectangle and
    keeps id, name and properties. *)
Theorem stored_area_waits_for_release
    (index : Edge) (frames : list (Q * Q)) (this : t) :
  let dragging :=
    fst (run (SquareSelected index
              :: map (fun f => SquareDrag index (fst f) (snd f)) frames) this) in
  let final := fst (run (resize_gesture index frames) this) in
  getAreaData dragging = getAreaData this
  /\ final = fst (square_on_released index dragging)
  /\ getAreaData final
     = AreaData.mk (getId this) (getName this)
         (Rectangle.x (preview dragging)
          - Rectangle.displayWidth (preview dragging) * 0.5)
         (Rectangle.y (preview dragging)
          - Rectangle.displayHeight (preview dragging) * 0.5)
         (Rectangle.displayWidth (preview dragging))
         (Rectangle.displayHeight (preview dragging))
         (AreaData.properties (getAreaData this))
  /\ preview final = preview dragging
  /\ squares final = squares dragging.
Proof.
  cbv zeta. rewrite resize_gesture_state, run_cons.
  cbn [fst step square_on_selected].
  set (s2 := fst (run _ (set_squareSelected true this))).
  destruct (drags_others index frames (set_squareSelected true this))
    as (_ & Ha & _). fold s2 in Ha. cbn [areaData set_squareSelected] in Ha.
  unfold getAreaData, getId, getName, square_on_released,
    updateAreaDataWithSquaresAdjustments.
  cbn [fst areaData set_areaData set_squareSelected preview squares].
  rewrite Ha. repeat split.
Qed.

(** X5: a handle gesture emits exactly one event, the Update of the
    release, whatever its frames were: none at all, all rejected or all
    accepted.  Its payload is the id with the x, y, width and height of
    the area stored by the release. *)
Theorem resize_gesture_emits_one_update
    (index : Edge) (frames : list (Q * Q)) (this : t) :
  let result := run (resize_gesture index frames) this in
  let committed := getAreaData (fst result) in
  emitted (snd result)
  = [Update (AtLeastId.geometry (getId this)
               (AreaData.x committed) (AreaData.y committed)
               (AreaData.width committed) (AreaData.height committed))].
Proof.
  cbv zeta. rewrite resize_gesture_state.
  unfold resize_gesture. rewrite run_cons.
  cbn [fst snd step square_on_selected app]. rewrite run_app. cbn [snd].
  rewrite emitted_app, drags_emit_nothing. cbn [app].
  set (s2 := fst (run _ (set_squareSelected true this))).
  destruct (drags_others index frames (set_squareSelected true this))
    as (_ & Ha & _). fold s2 in Ha. cbn [areaData set_squareSelected] in Ha.
  rewrite run_cons. cbn [fst snd step run]. rewrite app_nil_r.
  unfold square_on_released, geometryOf, getAreaData, getId,
    updateAreaDataWithSquaresAdjustments.
  cbn [fst snd areaData set_areaData set_squareSelected preview emitted omap
         AreaData.id AreaData.x AreaData.y AreaData.width AreaData.height].
  rewrite Ha. reflexivity.
Qed.

End Commits.

Section PointerOnly.
Import AreaPreview.






(** X7: from the press on a handle until its release, through any number
    of drag frames of that handle, a drag of the rectangle's body does
    nothing: no move, no effect. *)
Theorem body_drag_ignored_while_handle_active
    (index : Edge) (frames : list (Q * Q)) (isDown : bool) (dragX dragY : Q)
    (this : t) :
  let dragging :=
    fst (run (SquareSelected index
              :: map (fun f => SquareDrag index (fst f) (snd f)) frames) this) in
  squareSelected dragging = true
  /\ preview_on_drag isDown dragX dragY dragging = (dragging, []).
Proof.
  cbv zeta. rewrite run_cons. cbn [fst step square_on_selected].
  set (s2 := fst (run _ (set_squareSelected true this))).
  destruct (drags_others index frames (set_squareSelected true this))
    as (_ & _ & _ & _ & Hq). fold s2 in Hq.
  cbn [squareSelected set_squareSelected] in Hq.
  split; [exact Hq|].
  rewrite preview_on_drag_eq, Hq. cbn [negb]. rewrite andb_false_r.
  reflexivity.
Qed.

Lemma resized_horizontal (index : Edge) (dragX dragY dragY' : Q) (this : t) :
  drags_horizontally index = true ->
  resized index dragX dragY this = resized index dragX dragY' this.
Proof.
  intros Hd. destruct index; try discriminate Hd;
    open_state this; run_code; reflexivity.
Qed.

Lemma resized_vertical (index : Edge) (dragX dragX' dragY : Q) (this : t) :
  drags_vertically index = true ->
  resized index dragX dragY this = resized index dragX' dragY this.
Proof.
  intros Hd. destruct index; try discriminate Hd;
    open_state this; run_code; reflexivity.
Qed.

(** X9: an edge-midpoint handle works on one axis: the component after a
    drag frame of [LeftCenter] or [RightCenter] does not depend on the
    pointer's y, and after one of [TopCenter] or [BottomCenter] not on
    the pointer's x. *)
Theorem edge_handle_reads_one_coordinate
    (index : Edge) (dragX dragY other : Q) (this : t) :
  (drags_horizontally index = true ->
   square_on_drag index dragX dragY this = square_on_drag index dragX other this)
  /\ (drags_vertically index = true ->
      square_on_drag index dragX dragY this
      = square_on_drag index other dragY this).
Proof.
  rewrite !square_on_drag_eq. split; intros Hd.
  - rewrite (resized_horizontal index dragX dragY other this Hd). reflexivity.
  - rewrite (resized_vertical index dragX other dragY this Hd). reflexivity.
Qed.

Lemma edge_handle_reads_one_coordinate_witness :
  let this := constructor GameScene area_a1 in
  drags_horizontally RightCenter = true
  /\ square_on_drag RightCenter 150 50 this
     = square_on_drag RightCenter 150 999 this.
Proof.
  split; [reflexivity|].
  exact (proj1 (edge_handle_reads_one_coordinate RightCenter 150 50 999
                  (constructor GameScene area_a1)) eq_refl).
Defined.

End PointerOnly.

Section MoveAndRoundTrips.
Import AreaPreview.








End MoveAndRoundTrips.

Section Properties.
Import AreaPreview.

Lemma select_areaData (value : bool) (this : t) :
  areaData (select value this) = areaData this.
Proof.
  unfold select, showSizeAlteringSquares.
  destruct (bool_decide _); [reflexivity|].
  destruct (_ && _); reflexivity.
Qed.

Lemma setVisible_areaData (value : bool) (this : t) :
  areaData (setVisible value this) = areaData this.
Proof.
  unfold setVisible, showSizeAlteringSquares.
  destruct value; cbn; reflexivity.
Qed.

Lemma merge_keeps_keys (object : AreaData.t) (source : AtLeastId.t)
    (key : string) :
  is_Some (AreaData.properties object !! key) ->
  is_Some (AreaData.properties (Lodash.merge object source) !! key).
Proof.
  intros H. unfold Lodash.merge. cbn [AreaData.properties].
  destruct (AtLeastId.properties source) as [sp|]; [|exact H].
  rewrite merge_fields_lookup. destruct (sp !! key); [eexists; reflexivity|exact H].
Qed.

Lemma step_keeps_keys (i : Input) (this : t) (key : string) :
  is_Some (AreaData.properties (getAreaData this) !! key) ->
  is_Some (AreaData.properties (getAreaData (fst (step i this))) !! key).
Proof.
  unfold getAreaData. intros H. destruct i; cbn [step fst].
  - rewrite select_areaData. exact H.
  - rewrite setVisible_areaData. exact H.
  - destruct (updatePreview_state dataToModify this) as (Ha & _).
    unfold getAreaData in Ha. rewrite Ha. apply merge_keeps_keys, H.
  - unfold setProperty. cbn.
    destruct (decide (key0 = key)) as [->|Hne].
    + rewrite lookup_insert_eq. eexists; reflexivity.
    + rewrite lookup_insert_ne by exact Hne. exact H.
  - unfold updateData. cbn [fst].
    destruct (updatePreview_state
                (AtLeastId.spread (AreaData.id (areaData this)) dataToChange)
                this) as (Ha & _).
    unfold getAreaData in Ha. rewrite Ha. apply merge_keeps_keys, H.
  - exact H.
  - unfold preview_on_pointer_down. destruct (negb _); exact H.
  - destruct (preview_on_drag_others isDown dragX dragY this) as (_ & Ea & _).
    rewrite Ea. exact H.
  - unfold preview_on_pointer_up. destruct (_ && _); exact H.
  - exact H.
  - destruct (square_on_drag_others index dragX dragY this) as (_ & Ea & _).
    rewrite Ea. exact H.
  - exact H.
Qed.

(** X14: no method call and no pointer event removes a property: a key
    present in the stored properties is present after any sequence of
    inputs, whatever patches [updatePreview] and [updateData] merged in
    between. *)
Theorem property_keys_never_removed
    (inputs : list Input) (this : t) (key : string) :
  is_Some (AreaData.properties (getAreaData this) !! key) ->
  is_Some (AreaData.properties (getAreaData (fst (run inputs this))) !! key).
Proof.
  revert this. induction inputs as [|i inputs IH]; intros this H; [exact H|].
  rewrite run_cons. cbn [fst]. apply IH, step_keeps_keys, H.
Qed.

Lemma property_keys_never_removed_witness :
  let this := fst (setProperty "color" (VStr "red") (constructor GameScene area_a1)) in
  let inputs :=
    [UpdatePreview
       (AtLeastId.mk "a1" None None None None None
          (Some {[ "silent"%string := VBool true ]}));
     SquareSelected TopLeft; SquareReleased TopLeft] in
  is_Some (AreaData.properties (getAreaData this) !! "color"%string)
  /\ is_Some (AreaData.properties (getAreaData (fst (run inputs this)))
              !! "color"%string).
Proof.
  assert (H : is_Some
                (AreaData.properties
                   (getAreaData
                      (fst (setProperty "color" (VStr "red")
                              (constructor GameScene area_a1))))
                 !! "color"%string))
    by (exists (VStr "red"); vm_compute; reflexivity).
  split; [exact H|].
  exact (property_keys_never_removed _ _ _ H).
Defined.

End Properties.

(** *** Merging the same patch twice *)

Section Idempotence.
Import AreaPreview.

Lemma value_size_field (fields : gmap string Value) (key : string) (v : Value) :
  fields !! key = Some v -> (value_size v < value_size (VObj fields))%nat.
Proof.
  intros H. cbn [value_size].
  rewrite (map_fold_delete_L _ _ key v fields); [lia| |exact H].
  intros. lia.
Qed.

(** Induction on property values, through the fields of objects. *)
Lemma Value_fields_ind (P : Value -> Prop) :
  (forall n, P (VNum n)) -> (forall s, P (VStr s)) -> (forall b, P (VBool b)) ->
  (forall fields,
      (forall key v, fields !! key = Some v -> P v) -> P (VObj fields)) ->
  forall v, P v.
Proof.
  intros Hn Hs Hb Ho v.
  remember (value_size v) as n eqn:En. revert v En.
  induction n as [n IH] using lt_wf_ind. intros v ->.
  destruct v as [q|s|b|fields]; [apply Hn|apply Hs|apply Hb|].
  apply Ho. intros key v Hk.
  apply (IH (value_size v) (value_size_field fields key v Hk) v eq_refl).
Qed.

Lemma merge_value_self (v : Value) : Lodash.merge_value v v = v.
Proof.
  induction v as [| | |fields IH] using Value_fields_ind; try reflexivity.
  cbn [Lodash.merge_value]. f_equal. apply map_eq. intros key.
  rewrite lookup_union, map_lookup_imap.
  destruct (fields !! key) as [v|] eqn:Hk; cbn; [|reflexivity].
  rewrite (IH key v Hk). reflexivity.
Qed.

Lemma merge_value_twice (source object : Value) :
  Lodash.merge_value (Lodash.merge_value object source) source
  = Lodash.merge_value object source.
Proof.
  revert object.
  induction source as [| | |sf IH] using Value_fields_ind; intros object;
    try reflexivity.
  destruct object as [q|s|b|df];
    try (cbn [Lodash.merge_value]; apply (merge_value_self (VObj sf))).
  cbn [Lodash.merge_value]. f_equal. apply map_eq. intros key.
  rewrite !lookup_union, !map_lookup_imap.
  rewrite lookup_union, map_lookup_imap.
  destruct (sf !! key) as [sv|] eqn:Hk; cbn; [|destruct (df !! key); reflexivity].
  destruct (df !! key) as [dv|] eqn:Hd; cbn.
  - rewrite (IH key sv Hk). reflexivity.
  - rewrite merge_value_self. reflexivity.
Qed.

Lemma merge_fields_twice (object source : gmap string Value) :
  Lodash.merge_fields (Lodash.merge_fields object source) source
  = Lodash.merge_fields object source.
Proof.
  pose proof (merge_value_twice (VObj source) (VObj object)) as H.
  unfold Lodash.merge_fields. cbn [Lodash.merge_value] in *.
  injection H as H. exact H.
Qed.

Lemma merge_twice (object : AreaData.t) (source : AtLeastId.t) :
  Lodash.merge (Lodash.merge object source) source = Lodash.merge object source.
Proof.
  unfold Lodash.merge. cbn [AreaData.id AreaData.name AreaData.x AreaData.y
    AreaData.width AreaData.height AreaData.properties].
  f_equal; try (destruct source as [? [?|] [?|] [?|] [?|] [?|] ?]; reflexivity).
  destruct (AtLeastId.properties source); [apply merge_fields_twice|reflexivity].
Qed.

Lemma repositioned_again (p p0 : Rectangle.t) (a a0 : AreaData.t) (this : t) :
  updateSquaresPositions
    (set_preview p
       (set_areaData a
          (updateSquaresPositions (set_preview p0 (set_areaData a0 this)))))
  = updateSquaresPositions (set_preview p (set_areaData a this)).
Proof. open_state this. destruct p, p0. run_code. reflexivity. Qed.

Lemma updatePreview_again (dataToModify : AtLeastId.t) (this : t) :
  updatePreview dataToModify (updatePreview dataToModify this)
  = updatePreview dataToModify this.
Proof.
  rewrite (updatePreview_eq dataToModify (updatePreview dataToModify this)).
  destruct (updatePreview_state dataToModify this) as (Ha & Hp & _).
  cbv zeta in Ha, Hp. unfold getAreaData in Ha. rewrite Ha, Hp, merge_twice.
  cbn [Rectangle.visible].
  rewrite (updatePreview_eq dataToModify this). apply repositioned_again.
Qed.

(** X11: [updatePreview] is idempotent: applying a patch a second time
    changes nothing, in the stored area (nested properties included), in
    the rectangle or in the handles; so an Update delivered twice to a
    listener that forwards it to [updatePreview] is harmless. *)
Theorem updatePreview_idempotent (dataToModify : AtLeastId.t) (this : t) :
  updatePreview dataToModify (updatePreview dataToModify this)
  = updatePreview dataToModify this.
Proof.
  rewrite (updatePreview_eq dataToModify (updatePreview dataToModify this)).
  destruct (updatePreview_state dataToModify this) as (Ha & Hp & _).
  cbv zeta in Ha, Hp. unfold getAreaData in Ha. rewrite Ha, Hp, merge_twice.
  cbn [Rectangle.visible].
  rewrite (updatePreview_eq dataToModify this). apply repositioned_again.
Qed.

End Idempotence.

Section Composition.
Import AreaPreview.

(** X15: [updateData] changes the component once and notifies every
    time: a second call with the same patch leaves the component as the
    first call left it and emits the same Update again. *)
Theorem updateData_twice (dataToChange : PartialAreaData.t) (this : t) :
  let once := updateData dataToChange this in
  let twice := updateData dataToChange (fst once) in
  fst twice = fst once
  /\ snd twice = snd once
  /\ snd once
     = [Emit (Update (AtLeastId.spread (getId this) dataToChange))].
Proof.
  cbv zeta. unfold updateData. cbn [fst snd].
  destruct (updatePreview_state
              (AtLeastId.spread (AreaData.id (areaData this)) dataToChange)
              this) as (Ha & _).
  cbv zeta in Ha. unfold getAreaData in Ha. rewrite Ha.
  assert (E : AtLeastId.spread
                (AreaData.id
                   (Lodash.merge (areaData this)
                      (AtLeastId.spread (AreaData.id (areaData this))
                         dataToChange))) dataToChange
              = AtLeastId.spread (AreaData.id (areaData this)) dataToChange).
  { unfold AtLeastId.spread, Lodash.merge. cbn.
    destruct (PartialAreaData.id dataToChange); reflexivity. }
  rewrite E. split; [apply updatePreview_again|]. split; reflexivity.
Qed.

Lemma commit_then_drag (index : Edge) (dragX dragY : Q) (a : AreaData.t)
    (b : bool) (this : t) :
  fst (square_on_drag index dragX dragY
         (set_areaData a (set_squareSelected b this)))
  = set_areaData a
      (set_squareSelected b (fst (square_on_drag index dragX dragY this))).
Proof.
  rewrite !square_on_drag_eq. cbn [fst].
  replace (resized index dragX dragY (set_areaData a (set_squareSelected b this)))
    with (resized index dragX dragY this)
    by (open_state this; destruct index; run_code; reflexivity).
  generalize (resized index dragX dragY this). intros p.
  open_state this. destruct p. run_code. reflexivity.
Qed.

Lemma commit_then_drags (index : Edge) (frames : list (Q * Q))
    (a : AreaData.t) (b : bool) (this : t) :
  fst (run (map (fun f => SquareDrag index (fst f) (snd f)) frames)
           (set_areaData a (set_squareSelected b this)))
  = set_areaData a
      (set_squareSelected b
         (fst (run (map (fun f => SquareDrag index (fst f) (snd f)) frames)
                   this))).
Proof.
  revert this. induction frames as [|f frames IH]; intros this; [reflexivity|].
  cbn [map]. rewrite !run_cons. cbn [fst step].
  rewrite commit_then_drag. apply IH.
Qed.

(** X16: gestures on a handle compose: two gestures in a row, the first
    with frames [f1] and the second with frames [f2], leave the component
    (stored area, rectangle, handles, flags) that one gesture with the
    frames [f1 ++ f2] leaves; the release in the middle commits a
    geometry and changes nothing that a later frame reads. *)
Theorem resize_gestures_concatenate
    (index : Edge) (f1 f2 : list (Q * Q)) (this : t) :
  fst (run (resize_gesture index f1 ++ resize_gesture index f2) this)
  = fst (run (resize_gesture index (f1 ++ f2)) this).
Proof.
  rewrite run_app. cbn [fst]. rewrite !resize_gesture_state.
  rewrite map_app, run_app. cbn [fst].
  set (s1 := fst (run (map _ f1) (set_squareSelected true this))).
  unfold square_on_released at 2. cbn [fst].
  unfold updateAreaDataWithSquaresAdjustments.
  set (a1 := AreaData.mk _ _ _ _ _ _ _).
  replace (set_squareSelected true
             (set_areaData a1 (set_squareSelected false s1)))
    with (set_areaData a1 (set_squareSelected true s1))
    by (destruct s1; reflexivity).
  rewrite commit_then_drags.
  destruct (drags_others index f2 s1) as (_ & Ha & _).
  set (s2 := fst (run (map _ f2) s1)) in *.
  subst a1. cbn [areaData preview set_squareSelected] in *.
  unfold square_on_released, updateAreaDataWithSquaresAdjustments.
  cbn [fst]. destruct s2, s1. cbn in *. subst. reflexivity.
Qed.

End Composition.
